(** * CURHELL2.C: "Hello, world!", ncurses style, in colour

    A shallow embedding of [src/n2.c] and the properties of its single
    function [main].  The program talks to two things outside itself: the
    curses library (and, through it, the terminal) and the C runtime
    ([fprintf], [sleep], [exit]).  Every call that crosses that boundary is
    recorded, in order and with its arguments, in a log of [event]s; the
    three answers the program reads back ([initscr]'s return value,
    [has_colors]'s return value and the global [COLOR_PAIRS]) come from a
    [terminal] record, which also holds the argument vector and the
    environment the process is started with.  [main] itself is written in
    a small state-and-exit monad, statement by statement as in the C
    text. *)

From Stdlib Require Import ZArith List String Ascii Bool Lia Sorted.
From Equations Require Import Equations.
Import ListNotations.

Local Open Scope string_scope.
Local Open Scope list_scope.
Local Open Scope Z_scope.

(** ** Constants of the included headers *)

(** [<stdlib.h>] / [<stdio.h>]: the null pointer and the two exit codes
    (POSIX: [EXIT_SUCCESS] is 0, [EXIT_FAILURE] is 1). *)
Definition NULL : Z := 0.
Definition EXIT_SUCCESS : Z := 0.
Definition EXIT_FAILURE : Z := 1.

(** [<limits.h>]: the range of an [int] (32 bits) and of a [short]
    (16 bits). *)
Definition INT_MIN : Z := -2147483648.
Definition INT_MAX : Z := 2147483647.
Definition SHRT_MIN : Z := -32768.
Definition SHRT_MAX : Z := 32767.

(** An [int] passed where the prototype says [short]: the value is kept
    when it fits and wraps around modulo 65536 when it does not. *)
Definition to_short (x : Z) : Z := (x + 32768) mod 65536 - 32768.

(** [<stdio.h>]: the streams a diagnostic can go to. *)
Inductive FILE : Type := stdout | stderr.

(** [<curses.h>]: the eight [COLOR_*] macros. *)
Inductive color : Type :=
| COLOR_BLACK | COLOR_RED | COLOR_GREEN | COLOR_YELLOW
| COLOR_BLUE | COLOR_MAGENTA | COLOR_CYAN | COLOR_WHITE.

(** The integer each macro expands to. *)
Definition color_code (c : color) : Z :=
  match c with
  | COLOR_BLACK => 0 | COLOR_RED => 1 | COLOR_GREEN => 2 | COLOR_YELLOW => 3
  | COLOR_BLUE => 4 | COLOR_MAGENTA => 5 | COLOR_CYAN => 6 | COLOR_WHITE => 7
  end.

Definition FILE_eqb (f g : FILE) : bool :=
  match f, g with
  | stdout, stdout | stderr, stderr => true
  | _, _ => false
  end.

(** The line feed that ends the diagnostic (the C escape backslash-n). *)
Definition LF : string := String (ascii_of_nat 10) EmptyString.

(** ** The boundary: answers read and calls made *)

(** What the outside gives this process.  The first three fields are what
    the library answers to this program: a [WINDOW *] is an address,
    [NULL] being 0; [COLOR_PAIRS] is the value the global holds when line 45
    reads it.  The last two are what the process is started with, its
    argument vector and its environment: a C program can read them, so they
    are within reach of the monad below. *)
Record terminal : Type := {
  initscr_ret : Z;
  has_colors_ret : bool;
  COLOR_PAIRS : Z;
  argv : list string;
  envp : list (string * string)
}.

(** One constructor per external function the program calls, carrying the
    arguments passed and, where the program looks at it, the value
    returned. *)
Inductive event : Type :=
| Einitscr (ret : Z)
| Efprintf (stream : FILE) (text : string)
| Estart_color
| Emvaddstr (y x : Z) (str : string)
| Ehas_colors (ret : bool)
| Einit_pair (pair : Z) (f b : color)
| Ecolor_set (pair : Z) (opts : Z)
| Erefresh
| Esleep (seconds : Z)
| Edelwin (win : Z)
| Eendwin.

(** ** The monad [main] runs in *)

(** A statement either falls through with a value or ends the process by
    calling [exit]. *)
Inductive outcome (A : Type) : Type :=
| Continues (a : A)
| Exits (status : Z).
Arguments Continues {A} a.
Arguments Exits {A} status.

Definition prog (A : Type) : Type :=
  terminal -> list event -> outcome A * list event.

Definition ret {A : Type} (a : A) : prog A :=
  fun _ log => (Continues a, log).

Definition bind {A B : Type} (m : prog A) (k : A -> prog B) : prog B :=
  fun t log =>
    match m t log with
    | (Continues a, log') => k a t log'
    | (Exits s, log') => (Exits s, log')
    end.

Notation "x <- m ;; k" := (bind m (fun x => k))
  (at level 61, m at next level, right associativity).
Notation "m ;; k" := (bind m (fun _ => k))
  (at level 61, right associativity).

(** A call whose result the program ignores. *)
Definition call (e : event) : prog unit :=
  fun _ log => (Continues tt, log ++ [e]).

(** [if (c) { body }] with no [else]. *)
Definition when (c : bool) (body : prog unit) : prog unit :=
  if c then body else ret tt.

(** *** The external functions, as the program uses them *)

Definition initscr : prog Z :=
  fun t log => (Continues (initscr_ret t), log ++ [Einitscr (initscr_ret t)]).

Definition has_colors : prog bool :=
  fun t log =>
    (Continues (has_colors_ret t), log ++ [Ehas_colors (has_colors_ret t)]).

(** Reading the global variable [COLOR_PAIRS]: no call is made. *)
Definition get_COLOR_PAIRS : prog Z :=
  fun t log => (Continues (COLOR_PAIRS t), log).

(** What a C program can read of its start: [getenv] looks a variable up
    in the environment, and a [main] that declares parameters is handed
    the argument vector.  This program's [main] is declared
    [int main(void)] and calls neither. *)
Fixpoint lookup_env (name : string) (env : list (string * string))
  : option string :=
  match env with
  | [] => None
  | (k, v) :: rest => if String.eqb k name then Some v else lookup_env name rest
  end.

Definition getenv (name : string) : prog (option string) :=
  fun t log => (Continues (lookup_env name (envp t)), log).

Definition get_argv : prog (list string) :=
  fun t log => (Continues (argv t), log).

(** [exit] does not return: whatever follows it is not run. *)
Definition exit {A : Type} (status : Z) : prog A :=
  fun _ log => (Exits status, log).

Definition fprintf (stream : FILE) (text : string) : prog unit :=
  call (Efprintf stream text).
Definition start_color : prog unit := call Estart_color.
Definition mvaddstr (y x : Z) (str : string) : prog unit :=
  call (Emvaddstr y x str).
Definition init_pair (pair : Z) (f b : color) : prog unit :=
  call (Einit_pair pair f b).
(** [int color_set(short pair, void *opts)]: the callee receives its first
    argument as a [short]. *)
Definition color_set (pair : Z) (opts : Z) : prog unit :=
  call (Ecolor_set (to_short pair) opts).
Definition refresh : prog unit := call Erefresh.
Definition sleep (seconds : Z) : prog unit := call (Esleep seconds).
Definition delwin (win : Z) : prog unit := call (Edelwin win).
Definition endwin : prog unit := call Eendwin.

(** ** The program *)

(** Lines 73-77:
    [while ( n <= 13 ) { color_set(n, NULL); mvaddstr(6 + n, 32, ...); n++; }]
    as a function of the current value of [n].  The number of turns still
    to go, [turns_left n], shrinks at every turn.  The body runs only with
    [n <= 13], where neither [6 + n] nor [n++] can leave the range of an
    [int], so for every [n] that is an [int] the arithmetic is that of the
    integers; the one conversion, of [n] to the [short] that [color_set]
    takes, is made in [color_set]. *)
Definition turns_left (n : Z) : nat := Z.to_nat (14 - n).
Arguments turns_left : simpl never.

Equations? hello_loop (n : Z) : prog unit by wf (turns_left n) lt :=
  hello_loop n with Z_le_gt_dec n 13 => {
    | left _ :=
        color_set n NULL ;;
        mvaddstr (6 + n) 32 " Hello, world! " ;;
        hello_loop (n + 1);
    | right _ := ret tt }.
Proof. unfold turns_left. lia. Qed.

(** Lines 45-78: the body of the [if], entered with [n = 1]. *)
Definition colour_block : prog unit :=
  let n := 1 in
  init_pair 1  COLOR_RED     COLOR_BLACK ;;
  init_pair 2  COLOR_GREEN   COLOR_BLACK ;;
  init_pair 3  COLOR_YELLOW  COLOR_BLACK ;;
  init_pair 4  COLOR_BLUE    COLOR_BLACK ;;
  init_pair 5  COLOR_MAGENTA COLOR_BLACK ;;
  init_pair 6  COLOR_CYAN    COLOR_BLACK ;;
  init_pair 7  COLOR_BLUE    COLOR_WHITE ;;
  init_pair 8  COLOR_WHITE   COLOR_RED ;;
  init_pair 9  COLOR_BLACK   COLOR_GREEN ;;
  init_pair 10 COLOR_BLUE    COLOR_YELLOW ;;
  init_pair 11 COLOR_WHITE   COLOR_BLUE ;;
  init_pair 12 COLOR_WHITE   COLOR_MAGENTA ;;
  init_pair 13 COLOR_BLACK   COLOR_CYAN ;;
  hello_loop n.

(** Line 45: [has_colors() && COLOR_PAIRS >= 13].  The right operand is
    evaluated only when the left one is true. *)
Definition colours_usable : prog bool :=
  hc <- has_colors ;;
  if hc then (cp <- get_COLOR_PAIRS ;; ret (cp >=? 13)) else ret false.

(** [int main(void)], lines 19-95. *)
Definition main : prog Z :=
  mainwin <- initscr ;;
  when (mainwin =? NULL)
    (fprintf stderr ("Error initialising ncurses." ++ LF)%string ;;
     exit EXIT_FAILURE) ;;
  start_color ;;
  mvaddstr 6 32 " Hello, world! " ;;
  usable <- colours_usable ;;
  when usable colour_block ;;
  refresh ;;
  sleep 3 ;;
  delwin mainwin ;;
  endwin ;;
  refresh ;;
  ret EXIT_SUCCESS.

(** ** Running the process *)

(** What is left of a run: the calls made and the status the process ends
    with, whether [main] returned it or [exit] was called with it. *)
Record run : Type := {
  events : list event;
  exit_status : Z;
  returned : bool
}.

Definition run_main (t : terminal) : run :=
  match main t [] with
  | (Continues r, log) => {| events := log; exit_status := r; returned := true |}
  | (Exits s, log) => {| events := log; exit_status := s; returned := false |}
  end.

(** ** Reading a log *)

(** What the log says about the screen, the colour table, the diagnostics,
    the pause and the session.  Only the curses rules the reading needs are
    used: [mvaddstr] writes at the given position with the window's current
    colour pair; [color_set] replaces that pair; a fresh window has pair 0,
    the terminal's default colours; [init_pair] defines an entry of the
    colour table; [initscr] opens the session when it returns a window and
    [endwin] closes it. *)

(** One string put on the screen. *)
Record draw : Type := {
  row : Z;
  col : Z;
  text : string;
  pair : Z
}.

(** The strings put on the screen by a log read with current pair [cur]. *)
Fixpoint draws_from (cur : Z) (log : list event) : list draw :=
  match log with
  | [] => []
  | Ecolor_set p _ :: rest => draws_from p rest
  | Emvaddstr y x s :: rest =>
      {| row := y; col := x; text := s; pair := cur |} :: draws_from cur rest
  | _ :: rest => draws_from cur rest
  end.

Definition draws (log : list event) : list draw := draws_from 0 log.

(** The draws of a log that landed on row [r]. *)
Definition draws_on_row (r : Z) (log : list event) : list draw :=
  filter (fun d => row d =? r) (draws log).

(** The colour pairs defined, in the order of their definition. *)
Fixpoint pair_defs (log : list event) : list (Z * (color * color)) :=
  match log with
  | [] => []
  | Einit_pair p f b :: rest => (p, (f, b)) :: pair_defs rest
  | _ :: rest => pair_defs rest
  end.

(** Everything the program itself writes to [stream] with [fprintf].  What
    the curses library sends to the terminal when it refreshes the screen
    is not part of it. *)
Fixpoint written_to (stream : FILE) (log : list event) : string :=
  match log with
  | [] => EmptyString
  | Efprintf f s :: rest =>
      if FILE_eqb f stream then (s ++ written_to stream rest)%string
      else written_to stream rest
  | _ :: rest => written_to stream rest
  end.

(** The number of line feeds in a string. *)
Fixpoint line_count (s : string) : nat :=
  match s with
  | EmptyString => O
  | String c rest =>
      if Ascii.eqb c (ascii_of_nat 10) then S (line_count rest)
      else line_count rest
  end.

(** Seconds spent in [sleep]. *)
Fixpoint slept (log : list event) : Z :=
  match log with
  | [] => 0
  | Esleep s :: rest => s + slept rest
  | _ :: rest => slept rest
  end.

(** The display session: not yet started, started, or stopped. *)
Inductive session : Type := Uninitialized | Active | Terminated.

(** [initscr] starts the session when it returns a window, [endwin] stops
    a started one; every other call, [refresh] included, leaves it as it
    is. *)
Definition session_step (s : session) (e : event) : session :=
  match e with
  | Einitscr w => if w =? NULL then s else Active
  | Eendwin => match s with Active => Terminated | _ => s end
  | _ => s
  end.

Definition session_after (log : list event) : session :=
  fold_left session_step log Uninitialized.

(** Calls that put something on the screen. *)
Definition is_draw (e : event) : bool :=
  match e with Emvaddstr _ _ _ => true | _ => false end.

(** Calls that define or select a colour pair. *)
Definition is_colour_call (e : event) : bool :=
  match e with Einit_pair _ _ _ | Ecolor_set _ _ => true | _ => false end.

Definition is_color_set (e : event) : bool :=
  match e with Ecolor_set _ _ => true | _ => false end.

Definition is_start_color (e : event) : bool :=
  match e with Estart_color => true | _ => false end.

Definition is_initscr (e : event) : bool :=
  match e with Einitscr _ => true | _ => false end.

(** ** The shapes a log can take *)

(** The calls of [k] turns of the loop that start with [n]. *)
Fixpoint coloured_rows (k : nat) (n : Z) : list event :=
  match k with
  | O => []
  | S k' =>
      Ecolor_set (to_short n) NULL :: Emvaddstr (6 + n) 32 " Hello, world! "
        :: coloured_rows k' (n + 1)
  end.

(** The thirteen definitions of lines 56-68. *)
Definition pair_table : list (Z * (color * color)) :=
  [ (1,  (COLOR_RED,     COLOR_BLACK));
    (2,  (COLOR_GREEN,   COLOR_BLACK));
    (3,  (COLOR_YELLOW,  COLOR_BLACK));
    (4,  (COLOR_BLUE,    COLOR_BLACK));
    (5,  (COLOR_MAGENTA, COLOR_BLACK));
    (6,  (COLOR_CYAN,    COLOR_BLACK));
    (7,  (COLOR_BLUE,    COLOR_WHITE));
    (8,  (COLOR_WHITE,   COLOR_RED));
    (9,  (COLOR_BLACK,   COLOR_GREEN));
    (10, (COLOR_BLUE,    COLOR_YELLOW));
    (11, (COLOR_WHITE,   COLOR_BLUE));
    (12, (COLOR_WHITE,   COLOR_MAGENTA));
    (13, (COLOR_BLACK,   COLOR_CYAN)) ].

Definition pair_table_calls : list event :=
  map (fun d => Einit_pair (fst d) (fst (snd d)) (snd (snd d))) pair_table.

(** The first three calls of a run that got a window, and the last five. *)
Definition opening (win : Z) : list event :=
  [Einitscr win; Estart_color; Emvaddstr 6 32 " Hello, world! "].

Definition closing (win : Z) : list event :=
  [Erefresh; Esleep 3; Edelwin win; Eendwin; Erefresh].

(** ** What shows of a run *)

(** What a user can see of a run: the screen contents with the colour
    table they refer to, the diagnostics, and the exit status. *)
Record observation : Type := {
  screen : list draw;
  palette : list (Z * (color * color));
  diagnostics : string;
  status : Z
}.

Definition observe (r : run) : observation :=
  {| screen := draws (events r);
     palette := pair_defs (events r);
     diagnostics := written_to stderr (events r);
     status := exit_status r |}.

(** Two terminals whose capability outcomes agree: both sessions start or
    both fail, and colour support and pair count are the same.  Nothing is
    asked of the window addresses, the argument vectors or the
    environments. *)
Definition same_capabilities (t1 t2 : terminal) : Prop :=
  (initscr_ret t1 =? NULL) = (initscr_ret t2 =? NULL) /\
  has_colors_ret t1 = has_colors_ret t2 /\
  COLOR_PAIRS t1 = COLOR_PAIRS t2.

(** The outcome of the test of line 45. *)
Definition usable (t : terminal) : bool :=
  has_colors_ret t && (COLOR_PAIRS t >=? 13).

(** The calls made between the base message and the closing calls. *)
Definition colour_part (t : terminal) : list event :=
  Ehas_colors (has_colors_ret t)
    :: (if usable t then pair_table_calls ++ coloured_rows 13 1 else []).

Ltac step_prog :=
  unfold bind, when, ret, exit, fprintf, start_color, mvaddstr, refresh,
    sleep, delwin, endwin, call, initscr, has_colors, get_COLOR_PAIRS.

(** ** Sample terminals *)

(** A colour terminal with 64 pairs, a colour terminal with 8 pairs, a
    monochrome terminal, and a start that fails. *)
Definition xterm : terminal :=
  {| initscr_ret := 4096; has_colors_ret := true; COLOR_PAIRS := 64;
     argv := ["n2"]; envp := [("TERM", "xterm")] |}.
Definition eight_pairs : terminal :=
  {| initscr_ret := 4096; has_colors_ret := true; COLOR_PAIRS := 8;
     argv := ["n2"]; envp := [("TERM", "ansi")] |}.
Definition vt100 : terminal :=
  {| initscr_ret := 8192; has_colors_ret := false; COLOR_PAIRS := 0;
     argv := ["n2"]; envp := [("TERM", "vt100")] |}.
Definition no_terminal : terminal :=
  {| initscr_ret := NULL; has_colors_ret := false; COLOR_PAIRS := 0;
     argv := ["n2"]; envp := [] |}.

(** The first one again, at another address, started with arguments and
    with another environment. *)
Definition xterm_loaded : terminal :=
  {| initscr_ret := 12288; has_colors_ret := true; COLOR_PAIRS := 64;
     argv := ["n2"; "--mono"; "-x"];
     envp := [("TERM", "dumb"); ("NO_COLOR", "1")] |}.

(** A terminal with other arguments and another environment put in place
    of its own. *)
Definition started_with
    (a : list string) (e : list (string * string)) (t : terminal)
  : terminal :=
  {| initscr_ret := initscr_ret t; has_colors_ret := has_colors_ret t;
     COLOR_PAIRS := COLOR_PAIRS t; argv := a; envp := e |}.

(** A program that does look at its environment, to set beside [main]:
    [getenv("TERM") == NULL ? EXIT_FAILURE : EXIT_SUCCESS]. *)
Definition asks_for_TERM : prog Z :=
  v <- getenv "TERM" ;;
  ret (match v with Some _ => EXIT_SUCCESS | None => EXIT_FAILURE end).

(** ** More ways to read a log *)

(** The colour pair a call names, if it names one. *)
Definition pair_of (e : event) : option Z :=
  match e with
  | Einit_pair p _ _ | Ecolor_set p _ => Some p
  | _ => None
  end.

(** The call names no pair, or one between 1 and 13. *)
Definition pair_in_table_range (e : event) : bool :=
  match pair_of e with
  | Some p => (1 <=? p) && (p <=? 13)
  | None => true
  end.

(** Every [color_set] of the log selects a pair that is in [defined] or
    that an earlier [init_pair] of the log defines. *)
Fixpoint selects_defined (defined : list Z) (log : list event) : bool :=
  match log with
  | [] => true
  | Einit_pair p _ _ :: rest => selects_defined (p :: defined) rest
  | Ecolor_set p _ :: rest =>
      existsb (Z.eqb p) defined && selects_defined defined rest
  | _ :: rest => selects_defined defined rest
  end.

Definition is_fprintf (e : event) : bool :=
  match e with Efprintf _ _ => true | _ => false end.

Definition is_delwin (e : event) : bool :=
  match e with Edelwin _ => true | _ => false end.

Definition is_endwin (e : event) : bool :=
  match e with Eendwin => true | _ => false end.

(** The [k] integers [n], [n + 1], ... *)
Fixpoint count_up (k : nat) (n : Z) : list Z :=
  match k with
  | O => []
  | S k' => n :: count_up k' (n + 1)
  end.

(** The values [n] takes in the turns of the loop entered with [n]: from
    [n] up to 13, none when [n] is already past 13. *)
Definition turn_numbers (n : Z) : list Z := count_up (turns_left n) n.

(** Calls that set up colour, define or select a pair, or draw: the ones
    that work on the screen of a started session. *)
Definition needs_session (e : event) : bool :=
  is_start_color e || is_colour_call e || is_draw e.

(** Read from session state [s], every call of the log that needs a
    session is made while the session is active. *)
Fixpoint inside_session (s : session) (log : list event) : bool :=
  match log with
  | [] => true
  | e :: rest =>
      (if needs_session e
       then match s with Active => true | _ => false end
       else true)
      && inside_session (session_step s e) rest
  end.

(** A colour terminal that has exactly 13 pairs. *)
Definition thirteen_pairs : terminal :=
  {| initscr_ret := 20480; has_colors_ret := true; COLOR_PAIRS := 13;
     argv := ["n2"]; envp := [("TERM", "ansi")] |}.

(** ** How the program runs *)

Section Loop.

Variable t : terminal.

(** The loop entered with [n] makes the calls of [turns_left n] turns
    and falls through. *)
Lemma hello_loop_log :
  forall (k : nat) (n : Z) (log : list event),
    turns_left n = k ->
    hello_loop n t log = (Continues tt, log ++ coloured_rows k n).
Proof.
  induction k as [|k IH]; intros n log Hk; rewrite hello_loop_equation_1;
    destruct (Z_le_gt_dec n 13) as [Hle|Hgt]; cbn.
  - unfold turns_left in Hk. lia.
  - unfold ret. now rewrite app_nil_r.
  - unfold bind, color_set, mvaddstr, call.
    rewrite (IH (n + 1)) by (unfold turns_left in *; lia).
    now rewrite <- !app_assoc.
  - unfold turns_left in Hk. lia.
Qed.

(** The loop always terminates, whatever [n] it is entered with. *)
Lemma hello_loop_falls_through (n : Z) (log : list event) :
  exists log', hello_loop n t log = (Continues tt, log').
Proof.
  eexists. now apply (hello_loop_log (turns_left n)).
Qed.

Lemma colour_block_log (log : list event) :
  colour_block t log
  = (Continues tt, log ++ pair_table_calls ++ coloured_rows 13 1).
Proof.
  unfold colour_block, bind, init_pair, call.
  rewrite (hello_loop_log 13) by reflexivity.
  now rewrite <- !app_assoc.
Qed.

End Loop.

Section Runs.

Variable t : terminal.

Lemma colours_usable_log (log : list event) :
  colours_usable t log
  = (Continues (usable t), log ++ [Ehas_colors (has_colors_ret t)]).
Proof.
  unfold colours_usable, usable. step_prog.
  now destruct (has_colors_ret t).
Qed.

(** Without a window: one diagnostic, then [exit]. *)
Lemma main_failed :
  initscr_ret t = NULL ->
  main t []
  = (Exits EXIT_FAILURE,
     [Einitscr NULL;
      Efprintf stderr ("Error initialising ncurses." ++ LF)%string]).
Proof.
  intros H. unfold main. step_prog. rewrite H. reflexivity.
Qed.

(** With a window: the opening, the colour part, the closing, and
    [return EXIT_SUCCESS]. *)
Lemma main_started :
  initscr_ret t <> NULL ->
  main t []
  = (Continues EXIT_SUCCESS,
     opening (initscr_ret t) ++ colour_part t ++ closing (initscr_ret t)).
Proof.
  intros H. apply Z.eqb_neq in H.
  unfold main, bind at 1. unfold initscr at 1.
  unfold bind at 1. rewrite H. unfold when at 1, bind at 1, ret at 1.
  unfold start_color at 1, call at 1, bind at 1.
  unfold mvaddstr at 1, call at 1, bind at 1.
  rewrite colours_usable_log. unfold bind at 1, colour_part.
  destruct (usable t); unfold when.
  - rewrite colour_block_log. step_prog. cbn [app opening closing].
    rewrite <- !app_assoc. reflexivity.
  - step_prog. reflexivity.
Qed.

Lemma run_failed :
  initscr_ret t = NULL ->
  run_main t
  = {| events := [Einitscr NULL;
                  Efprintf stderr ("Error initialising ncurses." ++ LF)%string];
       exit_status := EXIT_FAILURE;
       returned := false |}.
Proof. intros H. unfold run_main. now rewrite main_failed. Qed.

Lemma run_started :
  initscr_ret t <> NULL ->
  run_main t
  = {| events := opening (initscr_ret t) ++ colour_part t
                   ++ closing (initscr_ret t);
       exit_status := EXIT_SUCCESS;
       returned := true |}.
Proof. intros H. unfold run_main. now rewrite main_started. Qed.

End Runs.

(** *** The four sample runs *)

Example run_no_terminal :
  run_main no_terminal
  = {| events := [Einitscr 0;
                  Efprintf stderr ("Error initialising ncurses." ++ LF)%string];
       exit_status := 1;
       returned := false |}.
Proof. reflexivity. Qed.

Example run_vt100 :
  run_main vt100
  = {| events := [Einitscr 8192; Estart_color;
                  Emvaddstr 6 32 " Hello, world! "; Ehas_colors false;
                  Erefresh; Esleep 3; Edelwin 8192; Eendwin; Erefresh];
       exit_status := 0;
       returned := true |}.
Proof. reflexivity. Qed.

Example run_eight_pairs :
  run_main eight_pairs
  = {| events := [Einitscr 4096; Estart_color;
                  Emvaddstr 6 32 " Hello, world! "; Ehas_colors true;
                  Erefresh; Esleep 3; Edelwin 4096; Eendwin; Erefresh];
       exit_status := 0;
       returned := true |}.
Proof. reflexivity. Qed.

Example run_xterm_screen :
  map (fun d => (row d, pair d)) (draws (events (run_main xterm)))
  = [(6, 0); (7, 1); (8, 2); (9, 3); (10, 4); (11, 5); (12, 6); (13, 7);
     (14, 8); (15, 9); (16, 10); (17, 11); (18, 12); (19, 13)].
Proof. reflexivity. Qed.

(** ** The header constants *)

(** The eight colour macros expand to eight different integers, so naming
    a colour loses nothing. *)
Lemma color_code_inj (c d : color) : color_code c = color_code d -> c = d.
Proof. destruct c, d; intros E; try reflexivity; discriminate E. Qed.

(** ** The test of line 45 *)

Lemma usable_true (t : terminal) :
  has_colors_ret t = true -> COLOR_PAIRS t >= 13 -> usable t = true.
Proof.
  intros Hc Hp. unfold usable. rewrite Hc. cbn.
  apply Z.geb_le. lia.
Qed.

Lemma usable_false (t : terminal) :
  has_colors_ret t = false \/ COLOR_PAIRS t < 13 -> usable t = false.
Proof.
  intros [Hc|Hp]; unfold usable.
  - now rewrite Hc.
  - apply andb_false_iff. right.
    destruct (COLOR_PAIRS t >=? 13) eqn:E; [|reflexivity].
    apply Z.geb_le in E. lia.
Qed.

(** The events of a started run, with the test of line 45 decided. *)
Lemma events_started (t : terminal) :
  initscr_ret t <> NULL ->
  events (run_main t)
  = opening (initscr_ret t)
      ++ Ehas_colors (has_colors_ret t)
      :: (if usable t then pair_table_calls ++ coloured_rows 13 1 else [])
      ++ closing (initscr_ret t).
Proof. intros H. now rewrite (run_started t H). Qed.

(** Between one and thirteen there are thirteen integers. *)
Lemma one_to_thirteen (n : Z) :
  1 <= n <= 13 ->
  n = 1 \/ n = 2 \/ n = 3 \/ n = 4 \/ n = 5 \/ n = 6 \/ n = 7 \/ n = 8 \/
  n = 9 \/ n = 10 \/ n = 11 \/ n = 12 \/ n = 13.
Proof. lia. Qed.

(** ** Rendering *)

(** C1.  When [initscr] returns a window, the 15-character string
    " Hello, world! " is written by [mvaddstr] at row 6, column 32, and it
    is the only thing written on that row; this holds for every answer of
    [has_colors] and every value of [COLOR_PAIRS]. *)
Theorem base_message_drawn (t : terminal) :
  initscr_ret t <> NULL ->
  String.length " Hello, world! " = 15%nat /\
  (exists before after,
      events (run_main t)
      = before ++ Emvaddstr 6 32 " Hello, world! " :: after) /\
  map (fun d => (row d, col d, text d)) (draws_on_row 6 (events (run_main t)))
  = [(6, 32, " Hello, world! ")].
Proof.
  intros H. split; [reflexivity|]. rewrite (events_started t H). split.
  - exists [Einitscr (initscr_ret t); Estart_color]. eexists. reflexivity.
  - destruct (usable t); reflexivity.
Qed.

Lemma base_message_drawn_witness :
  initscr_ret vt100 <> NULL /\
  String.length " Hello, world! " = 15%nat /\
  (exists before after,
      events (run_main vt100)
      = before ++ Emvaddstr 6 32 " Hello, world! " :: after) /\
  map (fun d => (row d, col d, text d))
    (draws_on_row 6 (events (run_main vt100)))
  = [(6, 32, " Hello, world! ")].
Proof.
  assert (H : initscr_ret vt100 <> NULL) by (vm_compute; discriminate).
  split; [exact H | exact (base_message_drawn vt100 H)].
Defined.

(** C2.  On a terminal with colour and at least 13 pairs, for every [n]
    from 1 to 13 the message is drawn exactly once on row [6 + n], at
    column 32 and with colour pair [n]; and the pairs defined are, in this
    order, 1 (red, black), 2 (green, black), 3 (yellow, black),
    4 (blue, black), 5 (magenta, black), 6 (cyan, black), 7 (blue, white),
    8 (white, red), 9 (black, green), 10 (blue, yellow), 11 (white, blue),
    12 (white, magenta), 13 (black, cyan). *)
Theorem colour_rows_drawn (t : terminal) :
  initscr_ret t <> NULL ->
  has_colors_ret t = true ->
  COLOR_PAIRS t >= 13 ->
  (forall n, 1 <= n <= 13 ->
     draws_on_row (6 + n) (events (run_main t))
     = [{| row := 6 + n; col := 32; text := " Hello, world! "; pair := n |}])
  /\
  pair_defs (events (run_main t))
  = [ (1,  (COLOR_RED,     COLOR_BLACK));
      (2,  (COLOR_GREEN,   COLOR_BLACK));
      (3,  (COLOR_YELLOW,  COLOR_BLACK));
      (4,  (COLOR_BLUE,    COLOR_BLACK));
      (5,  (COLOR_MAGENTA, COLOR_BLACK));
      (6,  (COLOR_CYAN,    COLOR_BLACK));
      (7,  (COLOR_BLUE,    COLOR_WHITE));
      (8,  (COLOR_WHITE,   COLOR_RED));
      (9,  (COLOR_BLACK,   COLOR_GREEN));
      (10, (COLOR_BLUE,    COLOR_YELLOW));
      (11, (COLOR_WHITE,   COLOR_BLUE));
      (12, (COLOR_WHITE,   COLOR_MAGENTA));
      (13, (COLOR_BLACK,   COLOR_CYAN)) ].
Proof.
  intros H Hc Hp. rewrite (events_started t H), (usable_true t Hc Hp).
  split; [|reflexivity].
  intros n Hn.
  destruct (one_to_thirteen n Hn) as
    [->|[->|[->|[->|[->|[->|[->|[->|[->|[->|[->|[->| ->]]]]]]]]]]]];
    reflexivity.
Qed.

Lemma colour_rows_drawn_witness :
  initscr_ret xterm <> NULL /\
  has_colors_ret xterm = true /\
  COLOR_PAIRS xterm >= 13 /\
  (forall n, 1 <= n <= 13 ->
     draws_on_row (6 + n) (events (run_main xterm))
     = [{| row := 6 + n; col := 32; text := " Hello, world! "; pair := n |}])
  /\
  pair_defs (events (run_main xterm)) = pair_table.
Proof.
  assert (H : initscr_ret xterm <> NULL) by (vm_compute; discriminate).
  assert (Hc : has_colors_ret xterm = true) by reflexivity.
  assert (Hp : COLOR_PAIRS xterm >= 13) by (vm_compute; discriminate).
  split; [exact H|]. split; [exact Hc|]. split; [exact Hp|].
  exact (colour_rows_drawn xterm H Hc Hp).
Defined.

(** C3.  When [initscr] returns a window but the terminal has no colour,
    or fewer than 13 pairs, the base message on row 6 is the only thing
    drawn, rows 7 to 19 stay empty, no colour pair is defined or selected,
    nothing is written to either stream, and [main] still returns 0. *)
Theorem colour_gate_closed (t : terminal) :
  initscr_ret t <> NULL ->
  has_colors_ret t = false \/ COLOR_PAIRS t < 13 ->
  map (fun d => (row d, col d, text d)) (draws (events (run_main t)))
  = [(6, 32, " Hello, world! ")] /\
  (forall r, 7 <= r <= 19 -> draws_on_row r (events (run_main t)) = []) /\
  pair_defs (events (run_main t)) = [] /\
  existsb is_colour_call (events (run_main t)) = false /\
  written_to stderr (events (run_main t)) = EmptyString /\
  written_to stdout (events (run_main t)) = EmptyString /\
  returned (run_main t) = true /\
  exit_status (run_main t) = 0.
Proof.
  intros H Hgate.
  rewrite (events_started t H), (usable_false t Hgate), (run_started t H).
  repeat (split; [reflexivity|]).
  split; [|repeat (split; [reflexivity|]); reflexivity].
  intros r Hr. unfold draws_on_row. cbn -[Z.eqb].
  destruct (Z.eqb_spec 6 r); [lia|reflexivity].
Qed.

Lemma colour_gate_closed_witness :
  initscr_ret eight_pairs <> NULL /\
  (has_colors_ret eight_pairs = false \/ COLOR_PAIRS eight_pairs < 13) /\
  map (fun d => (row d, col d, text d)) (draws (events (run_main eight_pairs)))
  = [(6, 32, " Hello, world! ")] /\
  (forall r, 7 <= r <= 19 ->
     draws_on_row r (events (run_main eight_pairs)) = []) /\
  pair_defs (events (run_main eight_pairs)) = [] /\
  existsb is_colour_call (events (run_main eight_pairs)) = false /\
  written_to stderr (events (run_main eight_pairs)) = EmptyString /\
  written_to stdout (events (run_main eight_pairs)) = EmptyString /\
  returned (run_main eight_pairs) = true /\
  exit_status (run_main eight_pairs) = 0.
Proof.
  assert (H : initscr_ret eight_pairs <> NULL) by (vm_compute; discriminate).
  assert (Hg : has_colors_ret eight_pairs = false
               \/ COLOR_PAIRS eight_pairs < 13) by (right; reflexivity).
  split; [exact H|]. split; [exact Hg|].
  exact (colour_gate_closed eight_pairs H Hg).
Defined.

(** ** The failure path *)

(** C4.  When [initscr] returns [NULL], the run consists of that one call
    to [initscr] and one [fprintf] to [stderr]: nothing is drawn, the
    diagnostic is the single line "Error initialising ncurses.", [main]
    does not return but calls [exit], and the status is not 0. *)
Theorem init_failure (t : terminal) :
  initscr_ret t = NULL ->
  events (run_main t)
  = [Einitscr NULL;
     Efprintf stderr ("Error initialising ncurses." ++ LF)%string] /\
  existsb is_draw (events (run_main t)) = false /\
  written_to stderr (events (run_main t))
  = ("Error initialising ncurses." ++ LF)%string /\
  line_count (written_to stderr (events (run_main t))) = 1%nat /\
  List.length (filter is_initscr (events (run_main t))) = 1%nat /\
  returned (run_main t) = false /\
  exit_status (run_main t) <> 0.
Proof.
  intros H. rewrite (run_failed t H).
  repeat (split; [reflexivity|]). discriminate.
Qed.

Lemma init_failure_witness :
  initscr_ret no_terminal = NULL /\
  events (run_main no_terminal)
  = [Einitscr NULL;
     Efprintf stderr ("Error initialising ncurses." ++ LF)%string] /\
  existsb is_draw (events (run_main no_terminal)) = false /\
  written_to stderr (events (run_main no_terminal))
  = ("Error initialising ncurses." ++ LF)%string /\
  line_count (written_to stderr (events (run_main no_terminal))) = 1%nat /\
  List.length (filter is_initscr (events (run_main no_terminal))) = 1%nat /\
  returned (run_main no_terminal) = false /\
  exit_status (run_main no_terminal) <> 0.
Proof.
  assert (H : initscr_ret no_terminal = NULL) by reflexivity.
  split; [exact H | exact (init_failure no_terminal H)].
Defined.

(** ** Presenting and tearing down *)

(** C5.  In a run that got a window, the calls end with [refresh()],
    [sleep(3)] and then the teardown [delwin(mainwin)], [endwin()],
    [refresh()].  Every draw, and the colour test, comes before that
    [refresh()]; no time is spent sleeping before it; and the 3 seconds of
    that one [sleep] are all the time the run sleeps. *)
Theorem flush_then_pause (t : terminal) :
  initscr_ret t <> NULL ->
  exists before,
    events (run_main t)
    = before ++ [Erefresh; Esleep 3]
        ++ [Edelwin (initscr_ret t); Eendwin; Erefresh] /\
    filter is_draw before = filter is_draw (events (run_main t)) /\
    draws before = draws (events (run_main t)) /\
    In (Ehas_colors (has_colors_ret t)) before /\
    slept before = 0 /\
    slept (events (run_main t)) = 3.
Proof.
  intros H. rewrite (events_started t H).
  exists (opening (initscr_ret t)
            ++ Ehas_colors (has_colors_ret t)
            :: (if usable t then pair_table_calls ++ coloured_rows 13 1
                else [])).
  destruct (usable t); cbn; intuition reflexivity.
Qed.

Lemma flush_then_pause_witness :
  initscr_ret xterm <> NULL /\
  exists before,
    events (run_main xterm)
    = before ++ [Erefresh; Esleep 3]
        ++ [Edelwin (initscr_ret xterm); Eendwin; Erefresh] /\
    filter is_draw before = filter is_draw (events (run_main xterm)) /\
    draws before = draws (events (run_main xterm)) /\
    In (Ehas_colors (has_colors_ret xterm)) before /\
    slept before = 0 /\
    slept (events (run_main xterm)) = 3.
Proof.
  assert (H : initscr_ret xterm <> NULL) by (vm_compute; discriminate).
  split; [exact H | exact (flush_then_pause xterm H)].
Defined.

(** The session is never left open: it was never started, or it has been
    stopped. *)
Lemma session_not_left_active (t : terminal) :
  session_after (events (run_main t)) <> Active.
Proof.
  destruct (Z.eq_dec (initscr_ret t) NULL) as [H|H].
  - rewrite (run_failed t H). discriminate.
  - rewrite (events_started t H). unfold session_after.
    apply Z.eqb_neq in H.
    destruct (usable t); cbn; rewrite H; discriminate.
Qed.

(** C6.  In every run that got a window, whatever the colour test gives,
    the last three calls are [delwin(mainwin)], [endwin()] and
    [refresh()]: the session is active up to them and stopped after them,
    and only then does [main] return. *)
Theorem session_closed (t : terminal) :
  initscr_ret t <> NULL ->
  exists before,
    events (run_main t)
    = before ++ [Edelwin (initscr_ret t); Eendwin; Erefresh] /\
    session_after before = Active /\
    session_after (events (run_main t)) = Terminated /\
    returned (run_main t) = true.
Proof.
  intros H. rewrite (events_started t H), (run_started t H).
  exists (opening (initscr_ret t)
            ++ Ehas_colors (has_colors_ret t)
            :: (if usable t then pair_table_calls ++ coloured_rows 13 1
                else [])
            ++ [Erefresh; Esleep 3]).
  apply Z.eqb_neq in H. unfold session_after.
  destruct (usable t); cbn; rewrite H; intuition reflexivity.
Qed.

Lemma session_closed_witness :
  initscr_ret vt100 <> NULL /\
  exists before,
    events (run_main vt100)
    = before ++ [Edelwin (initscr_ret vt100); Eendwin; Erefresh] /\
    session_after before = Active /\
    session_after (events (run_main vt100)) = Terminated /\
    returned (run_main vt100) = true.
Proof.
  assert (H : initscr_ret vt100 <> NULL) by (vm_compute; discriminate).
  split; [exact H | exact (session_closed vt100 H)].
Defined.

(** C7.  The exit status is 0 exactly when [initscr] returned a window,
    which is exactly when [main] runs to its [return]; it is not 0 exactly
    when [initscr] returned [NULL]. *)
Theorem exit_status_by_initialisation (t : terminal) :
  (exit_status (run_main t) = 0 <-> initscr_ret t <> NULL) /\
  (exit_status (run_main t) <> 0 <-> initscr_ret t = NULL) /\
  (returned (run_main t) = true <-> initscr_ret t <> NULL).
Proof.
  destruct (Z.eq_dec (initscr_ret t) NULL) as [H|H].
  - rewrite (run_failed t H). cbn. unfold EXIT_FAILURE.
    repeat split; intros; try congruence; try discriminate.
  - rewrite (run_started t H). cbn. unfold EXIT_SUCCESS.
    repeat split; intros; try congruence.
Qed.

(** ** What the run depends on *)

(** What is observed of a run that got a window depends on the outcome of
    the colour test and on nothing else, not even on the window's
    address. *)
Lemma observe_started (t : terminal) :
  initscr_ret t <> NULL ->
  observe (run_main t)
  = observe (run_main {| initscr_ret := 1;
                         has_colors_ret := usable t;
                         COLOR_PAIRS := 13;
                         argv := []; envp := [] |}).
Proof.
  intros H. rewrite (run_started t H), run_started by discriminate.
  unfold observe, colour_part, usable. cbn -[Z.geb].
  destruct (has_colors_ret t), (COLOR_PAIRS t >=? 13); reflexivity.
Qed.

Lemma observe_failed (t : terminal) :
  initscr_ret t = NULL ->
  observe (run_main t) = observe (run_main no_terminal).
Proof. intros H. now rewrite (run_failed t H). Qed.

(** With the answers of the library left as they are, the whole run, call
    by call, is the same whatever arguments and environment the process is
    started with. *)
Lemma run_main_started_with
    (a : list string) (e : list (string * string)) (t : terminal) :
  run_main (started_with a e t) = run_main t.
Proof.
  destruct (Z.eq_dec (initscr_ret t) NULL) as [H|H].
  - now rewrite (run_failed t H), (run_failed (started_with a e t) H).
  - now rewrite (run_started t H), (run_started (started_with a e t) H).
Qed.

(** That is a fact about [main], not about every program that can be
    written here: one that calls [getenv] ends with a status that follows
    its environment, on one and the same terminal. *)
Lemma asks_for_TERM_depends_on_environment :
  same_capabilities xterm (started_with [] [] xterm) /\
  fst (asks_for_TERM xterm []) = Continues EXIT_SUCCESS /\
  fst (asks_for_TERM (started_with [] [] xterm) []) = Continues EXIT_FAILURE.
Proof. repeat split. Qed.

(** C8.  Two runs whose terminals agree on whether [initscr] succeeds, on
    [has_colors] and on [COLOR_PAIRS] show the same screen with the same
    colour table, give the same diagnostics and end with the same status,
    whatever argument vectors and environments the two processes are
    started with (and whatever addresses their windows have). *)
Theorem arguments_and_environment_ignored (t1 t2 : terminal) :
  same_capabilities t1 t2 ->
  observe (run_main t1) = observe (run_main t2).
Proof.
  intros (Hi & Hc & Hp).
  destruct (Z.eqb_spec (initscr_ret t1) NULL) as [H1|H1];
    symmetry in Hi.
  - apply Z.eqb_eq in Hi.
    now rewrite (observe_failed _ H1), (observe_failed _ Hi).
  - apply Z.eqb_neq in Hi.
    rewrite (observe_started _ H1), (observe_started _ Hi).
    unfold usable. now rewrite Hc, Hp.
Qed.

Lemma arguments_and_environment_ignored_witness :
  same_capabilities xterm xterm_loaded /\
  argv xterm <> argv xterm_loaded /\
  envp xterm <> envp xterm_loaded /\
  observe (run_main xterm) = observe (run_main xterm_loaded).
Proof.
  assert (H : same_capabilities xterm xterm_loaded) by (repeat split).
  split; [exact H|].
  split; [discriminate|]. split; [discriminate|].
  exact (arguments_and_environment_ignored xterm xterm_loaded H).
Defined.

(** ** Colour initialisation and the base message *)

(** C9.  In every run that got a window, [start_color()] is the call
    right after [initscr()] and right before the [mvaddstr] of the base
    message, and it is made once, whatever [has_colors] answers and
    whatever [COLOR_PAIRS] holds.  What follows contains calls that define
    or select a colour pair, the 13 definitions and 13 more draws, exactly
    when [has_colors] answers true and [COLOR_PAIRS] is at least 13. *)
Theorem start_color_unconditional (t : terminal) :
  initscr_ret t <> NULL ->
  exists rest,
    events (run_main t)
    = Einitscr (initscr_ret t) :: Estart_color
        :: Emvaddstr 6 32 " Hello, world! " :: rest /\
    existsb is_start_color rest = false /\
    existsb is_colour_call rest
    = has_colors_ret t && (COLOR_PAIRS t >=? 13) /\
    List.length (pair_defs rest)
    = (if has_colors_ret t && (COLOR_PAIRS t >=? 13) then 13 else 0)%nat /\
    List.length (draws rest)
    = (if has_colors_ret t && (COLOR_PAIRS t >=? 13) then 13 else 0)%nat.
Proof.
  intros H. rewrite (events_started t H).
  eexists. split; [reflexivity|].
  fold (usable t). destruct (usable t); cbn; intuition reflexivity.
Qed.

Lemma start_color_unconditional_witness :
  initscr_ret vt100 <> NULL /\
  exists rest,
    events (run_main vt100)
    = Einitscr (initscr_ret vt100) :: Estart_color
        :: Emvaddstr 6 32 " Hello, world! " :: rest /\
    existsb is_start_color rest = false /\
    existsb is_colour_call rest
    = has_colors_ret vt100 && (COLOR_PAIRS vt100 >=? 13) /\
    List.length (pair_defs rest)
    = (if has_colors_ret vt100 && (COLOR_PAIRS vt100 >=? 13)
       then 13 else 0)%nat /\
    List.length (draws rest)
    = (if has_colors_ret vt100 && (COLOR_PAIRS vt100 >=? 13)
       then 13 else 0)%nat.
Proof.
  assert (H : initscr_ret vt100 <> NULL) by (vm_compute; discriminate).
  split; [exact H | exact (start_color_unconditional vt100 H)].
Defined.

(** C10.  In every run that got a window, no [color_set] call comes
    before the [mvaddstr] of the base message: every [color_set] of the
    run comes after it.  So whatever is drawn on row 6 is drawn with
    pair 0, the default colours, which is none of the pairs the program
    defines, and the base message is drawn there with that pair. *)
Theorem base_message_default_colours (t : terminal) :
  initscr_ret t <> NULL ->
  exists before after,
    events (run_main t)
    = before ++ Emvaddstr 6 32 " Hello, world! " :: after /\
    existsb is_color_set before = false /\
    filter is_color_set (events (run_main t)) = filter is_color_set after /\
    draws_on_row 6 (events (run_main t))
    = [{| row := 6; col := 32; text := " Hello, world! "; pair := 0 |}] /\
    ~ In 0 (map fst (pair_defs (events (run_main t)))).
Proof.
  intros H. rewrite (events_started t H).
  exists [Einitscr (initscr_ret t); Estart_color]. eexists.
  split; [reflexivity|].
  destruct (usable t); cbn -[In]; repeat (split; [reflexivity|]).
  - cbn. intuition discriminate.
  - cbn. tauto.
Qed.

Lemma base_message_default_colours_witness :
  initscr_ret xterm <> NULL /\
  exists before after,
    events (run_main xterm)
    = before ++ Emvaddstr 6 32 " Hello, world! " :: after /\
    existsb is_color_set before = false /\
    filter is_color_set (events (run_main xterm))
    = filter is_color_set after /\
    draws_on_row 6 (events (run_main xterm))
    = [{| row := 6; col := 32; text := " Hello, world! "; pair := 0 |}] /\
    ~ In 0 (map fst (pair_defs (events (run_main xterm)))).
Proof.
  assert (H : initscr_ret xterm <> NULL) by (vm_compute; discriminate).
  split; [exact H | exact (base_message_default_colours xterm H)].
Defined.

(** ** The loop on its own *)

Lemma In_count_up (k : nat) :
  forall n j, In j (count_up k n) <-> n <= j < n + Z.of_nat k.
Proof.
  induction k as [|k IH]; intros n j; cbn [count_up In].
  - lia.
  - rewrite IH. lia.
Qed.

(** The turn numbers of the loop entered with [n] are the integers from
    [n] to 13. *)
Lemma In_turn_numbers (n j : Z) : In j (turn_numbers n) <-> n <= j <= 13.
Proof. unfold turn_numbers, turns_left. rewrite In_count_up. lia. Qed.

Lemma coloured_rows_length (k : nat) :
  forall n, List.length (coloured_rows k n) = (2 * k)%nat.
Proof.
  induction k as [|k IH]; intros n; cbn [coloured_rows List.length].
  - reflexivity.
  - rewrite IH. lia.
Qed.

Lemma coloured_rows_draws (k : nat) :
  forall n cur,
    draws_from cur (coloured_rows k n)
    = map (fun j => {| row := 6 + j; col := 32;
                       text := " Hello, world! "; pair := to_short j |})
        (count_up k n).
Proof.
  induction k as [|k IH]; intros n cur; cbn [coloured_rows draws_from count_up map].
  - reflexivity.
  - now rewrite IH.
Qed.

(** A value that fits in a [short] is passed on as it is. *)
Lemma to_short_fits (x : Z) : SHRT_MIN <= x <= SHRT_MAX -> to_short x = x.
Proof.
  unfold SHRT_MIN, SHRT_MAX, to_short. intros Hx.
  rewrite Z.mod_small by lia. lia.
Qed.

(** One that does not fit wraps around. *)
Example to_short_wraps : to_short (-32769) = 32767.
Proof. reflexivity. Qed.

(** X1.  The loop of lines 73-77, entered with any [int] value of [n] and
    after any calls: it never calls [exit], it keeps the calls made so
    far, and it adds two calls for each integer [j] from [n] to 13, going
    up: a [color_set] that receives [j] as a [short], and the draw of the
    message at row [6 + j], column 32, with that pair.  When [n] fits in a
    [short] the pair of row [6 + j] is [j] itself.  Entered with [n] past
    13, the loop adds nothing. *)
Theorem hello_loop_rows (n : Z) (t : terminal) (log : list event) :
  INT_MIN <= n <= INT_MAX ->
  exists added,
    hello_loop n t log = (Continues tt, log ++ added) /\
    List.length added = (2 * Z.to_nat (14 - n))%nat /\
    (forall cur,
        draws_from cur added
        = map (fun j => {| row := 6 + j; col := 32;
                           text := " Hello, world! "; pair := to_short j |})
            (turn_numbers n)) /\
    (SHRT_MIN <= n ->
     forall cur,
        draws_from cur added
        = map (fun j => {| row := 6 + j; col := 32;
                           text := " Hello, world! "; pair := j |})
            (turn_numbers n)) /\
    (forall j, In j (turn_numbers n) <-> n <= j <= 13) /\
    (13 < n -> added = []).
Proof.
  intros _.
  exists (coloured_rows (turns_left n) n).
  split; [now apply hello_loop_log|].
  split; [apply coloured_rows_length|].
  split; [intros cur; apply coloured_rows_draws|].
  split.
  { intros Hn cur. rewrite coloured_rows_draws. apply map_ext_in.
    intros j Hj. apply In_turn_numbers in Hj.
    rewrite to_short_fits; [reflexivity|]. unfold SHRT_MIN, SHRT_MAX in *.
    lia. }
  split; [intros j; apply In_turn_numbers|].
  intros Hn. unfold turns_left.
  replace (Z.to_nat (14 - n)) with O by lia. reflexivity.
Qed.

Lemma hello_loop_rows_witness :
  INT_MIN <= 12 <= INT_MAX /\
  exists added,
    hello_loop 12 xterm [Einitscr 4096] = (Continues tt, [Einitscr 4096] ++ added) /\
    List.length added = (2 * Z.to_nat (14 - 12))%nat /\
    (forall cur,
        draws_from cur added
        = map (fun j => {| row := 6 + j; col := 32;
                           text := " Hello, world! "; pair := to_short j |})
            (turn_numbers 12)) /\
    (SHRT_MIN <= 12 ->
     forall cur,
        draws_from cur added
        = map (fun j => {| row := 6 + j; col := 32;
                           text := " Hello, world! "; pair := j |})
            (turn_numbers 12)) /\
    (forall j, In j (turn_numbers 12) <-> 12 <= j <= 13) /\
    (13 < 12 -> added = []).
Proof.
  assert (H : INT_MIN <= 12 <= INT_MAX) by (vm_compute; split; discriminate).
  split; [exact H | exact (hello_loop_rows 12 xterm [Einitscr 4096] H)].
Defined.

(** ** Colour pairs: defined before use, and within bounds *)

Lemma selects_defined_sound :
  forall before log defined p o after,
    selects_defined defined log = true ->
    log = before ++ Ecolor_set p o :: after ->
    In p (map fst (pair_defs before)) \/ In p defined.
Proof.
  induction before as [|e before IH]; intros log defined p o after Hok ->.
  - cbn in Hok. apply andb_true_iff in Hok as [Hin _].
    apply existsb_exists in Hin as (q & Hq & Heq).
    apply Z.eqb_eq in Heq. subst q. now right.
  - destruct e; cbn in Hok;
      try (destruct (IH _ _ _ _ _ Hok eq_refl) as [Hin|Hin];
           [left; exact Hin | right; exact Hin]).
    + destruct (IH _ _ _ _ _ Hok eq_refl) as [Hin|[Heq|Hin]].
      * left. cbn. now right.
      * left. cbn. now left.
      * now right.
    + apply andb_true_iff in Hok as [_ Hok].
      destruct (IH _ _ _ _ _ Hok eq_refl) as [Hin|Hin];
        [left; exact Hin | right; exact Hin].
Qed.

Lemma run_selects_defined (t : terminal) :
  selects_defined [] (events (run_main t)) = true.
Proof.
  destruct (Z.eq_dec (initscr_ret t) NULL) as [H|H].
  - now rewrite (run_failed t H).
  - rewrite (events_started t H). now destruct (usable t).
Qed.

(** X2.  Wherever a run calls [color_set(p, ...)], an [init_pair(p, ...)]
    has been called earlier in the same run: no pair is selected before it
    is defined. *)
Theorem pair_defined_before_selected
    (t : terminal) (before after : list event) (p o : Z) :
  events (run_main t) = before ++ Ecolor_set p o :: after ->
  In p (map fst (pair_defs before)).
Proof.
  intros Hsplit.
  destruct (selects_defined_sound before _ [] p o after
              (run_selects_defined t) Hsplit) as [Hin|[]].
  exact Hin.
Qed.

Lemma pair_defined_before_selected_witness :
  events (run_main xterm)
  = firstn 21 (events (run_main xterm))
      ++ Ecolor_set 3 NULL :: skipn 22 (events (run_main xterm)) /\
  In 3 (map fst (pair_defs (firstn 21 (events (run_main xterm))))).
Proof.
  assert (H : events (run_main xterm)
              = firstn 21 (events (run_main xterm))
                  ++ Ecolor_set 3 NULL :: skipn 22 (events (run_main xterm)))
    by reflexivity.
  split; [exact H|].
  exact (pair_defined_before_selected xterm _ _ 3 NULL H).
Defined.

Lemma run_pairs_in_table_range (t : terminal) :
  forallb pair_in_table_range (events (run_main t)) = true.
Proof.
  destruct (Z.eq_dec (initscr_ret t) NULL) as [H|H].
  - now rewrite (run_failed t H).
  - rewrite (events_started t H). now destruct (usable t).
Qed.

Lemma run_names_pair_only_if_usable (t : terminal) :
  existsb is_colour_call (events (run_main t)) = true -> usable t = true.
Proof.
  destruct (Z.eq_dec (initscr_ret t) NULL) as [H|H].
  - rewrite (run_failed t H). discriminate.
  - rewrite (events_started t H). destruct (usable t); [reflexivity|].
    cbn. discriminate.
Qed.

(** X3.  Every pair number a run passes to [init_pair] or [color_set]
    lies between 1 and 13 and does not exceed [COLOR_PAIRS]; and such a
    call is made only on a terminal for which [has_colors] answered
    true. *)
Theorem pair_numbers_bounded (t : terminal) (e : event) (p : Z) :
  In e (events (run_main t)) ->
  pair_of e = Some p ->
  1 <= p <= 13 /\ p <= COLOR_PAIRS t /\ has_colors_ret t = true.
Proof.
  intros Hin Hp.
  assert (Hrange : 1 <= p <= 13).
  { pose proof (proj1 (forallb_forall _ _) (run_pairs_in_table_range t) e Hin)
      as Hr.
    unfold pair_in_table_range in Hr. rewrite Hp in Hr.
    apply andb_true_iff in Hr as [H1 H2].
    apply Z.leb_le in H1, H2. lia. }
  assert (Hu : usable t = true).
  { apply run_names_pair_only_if_usable. apply existsb_exists.
    exists e. split; [exact Hin|]. destruct e; try discriminate; reflexivity. }
  unfold usable in Hu. apply andb_true_iff in Hu as [Hc Hge].
  apply Z.geb_le in Hge. repeat split; try lia. exact Hc.
Qed.

Lemma pair_numbers_bounded_witness :
  In (Ecolor_set 13 NULL) (events (run_main xterm)) /\
  pair_of (Ecolor_set 13 NULL) = Some 13 /\
  1 <= 13 <= 13 /\ 13 <= COLOR_PAIRS xterm /\ has_colors_ret xterm = true.
Proof.
  assert (Hin : In (Ecolor_set 13 NULL) (events (run_main xterm))).
  { cbv. do 41 right. left. reflexivity. }
  assert (Hp : pair_of (Ecolor_set 13 NULL) = Some 13) by reflexivity.
  split; [exact Hin|]. split; [exact Hp|].
  exact (pair_numbers_bounded xterm _ 13 Hin Hp).
Defined.

(** X4.  On a colour terminal whose [COLOR_PAIRS] is exactly 13 the test
    of line 45 passes, and the run defines and selects the pair whose
    number is [COLOR_PAIRS] itself and draws row 19 with it. *)
Theorem last_pair_is_COLOR_PAIRS (t : terminal) :
  initscr_ret t <> NULL ->
  has_colors_ret t = true ->
  COLOR_PAIRS t = 13 ->
  In (Einit_pair (COLOR_PAIRS t) COLOR_BLACK COLOR_CYAN)
     (events (run_main t)) /\
  In (Ecolor_set (COLOR_PAIRS t) NULL) (events (run_main t)) /\
  draws_on_row 19 (events (run_main t))
  = [{| row := 19; col := 32; text := " Hello, world! ";
        pair := COLOR_PAIRS t |}].
Proof.
  intros H Hc Hp.
  rewrite (events_started t H), (usable_true t Hc) by lia. rewrite Hp.
  split; [cbn; do 16 right; left; reflexivity|].
  split; [cbn; do 41 right; left; reflexivity|].
  reflexivity.
Qed.

Lemma last_pair_is_COLOR_PAIRS_witness :
  initscr_ret thirteen_pairs <> NULL /\
  has_colors_ret thirteen_pairs = true /\
  COLOR_PAIRS thirteen_pairs = 13 /\
  In (Einit_pair (COLOR_PAIRS thirteen_pairs) COLOR_BLACK COLOR_CYAN)
     (events (run_main thirteen_pairs)) /\
  In (Ecolor_set (COLOR_PAIRS thirteen_pairs) NULL)
     (events (run_main thirteen_pairs)) /\
  draws_on_row 19 (events (run_main thirteen_pairs))
  = [{| row := 19; col := 32; text := " Hello, world! ";
        pair := COLOR_PAIRS thirteen_pairs |}].
Proof.
  assert (H : initscr_ret thirteen_pairs <> NULL)
    by (vm_compute; discriminate).
  assert (Hc : has_colors_ret thirteen_pairs = true) by reflexivity.
  assert (Hp : COLOR_PAIRS thirteen_pairs = 13) by reflexivity.
  split; [exact H|]. split; [exact Hc|]. split; [exact Hp|].
  exact (last_pair_is_COLOR_PAIRS thirteen_pairs H Hc Hp).
Defined.

(** ** The screen as a whole *)

(** The draws of a run, by cases. *)
Lemma run_draws (t : terminal) :
  draws (events (run_main t))
  = if initscr_ret t =? NULL then []
    else map (fun j => {| row := 6 + j; col := 32;
                          text := " Hello, world! "; pair := j |})
           (if usable t then count_up 14 0 else [0]).
Proof.
  destruct (Z.eqb_spec (initscr_ret t) NULL) as [H|H].
  - now rewrite (run_failed t H).
  - rewrite (events_started t H). now destruct (usable t).
Qed.

(** X5.  Whatever a run draws, it draws at column 32, it is the message
    " Hello, world! ", its pair is between 0 and 13 and its row is 6 plus
    its pair: so every draw lands on rows 6 to 19. *)
Theorem every_draw_in_place (t : terminal) (d : draw) :
  In d (draws (events (run_main t))) ->
  col d = 32 /\
  text d = " Hello, world! " /\
  0 <= pair d <= 13 /\
  row d = 6 + pair d.
Proof.
  rewrite run_draws. destruct (initscr_ret t =? NULL); [intros []|].
  intros Hin. apply in_map_iff in Hin as (j & <- & Hj).
  cbn [row col text pair]. repeat split; try reflexivity.
  - destruct (usable t).
    + apply In_count_up in Hj. lia.
    + destruct Hj as [<-|[]]. lia.
  - destruct (usable t).
    + apply In_count_up in Hj. lia.
    + destruct Hj as [<-|[]]. lia.
Qed.

Lemma every_draw_in_place_witness :
  In {| row := 12; col := 32; text := " Hello, world! "; pair := 6 |}
     (draws (events (run_main xterm))) /\
  32 = 32 /\
  " Hello, world! " = " Hello, world! " /\
  0 <= 6 <= 13 /\
  12 = 6 + 6.
Proof.
  assert (Hin : In {| row := 12; col := 32; text := " Hello, world! ";
                      pair := 6 |}
                   (draws (events (run_main xterm))))
    by (cbv; do 6 right; left; reflexivity).
  split; [exact Hin|].
  exact (every_draw_in_place xterm _ Hin).
Defined.

Lemma count_up_sorted (k : nat) :
  forall n, StronglySorted Z.lt (count_up k n).
Proof.
  induction k as [|k IH]; intros n; cbn [count_up]; constructor.
  - apply IH.
  - apply Forall_forall. intros j Hj. apply In_count_up in Hj. lia.
Qed.

Lemma count_up_length (k : nat) : forall n, List.length (count_up k n) = k.
Proof. induction k as [|k IH]; intros n; cbn; [|rewrite IH]; reflexivity. Qed.

(** X6.  The rows a run draws on go strictly down the screen: no row is
    drawn on twice, so no draw overwrites another.  A run draws nothing
    when [initscr] failed, 14 rows when the colour test passes and 1 row
    otherwise. *)
Theorem rows_strictly_increase (t : terminal) :
  StronglySorted Z.lt (map row (draws (events (run_main t)))) /\
  NoDup (map row (draws (events (run_main t)))) /\
  List.length (draws (events (run_main t)))
  = (if (initscr_ret t =? NULL)%Z then 0
     else if has_colors_ret t && (COLOR_PAIRS t >=? 13)%Z then 14
     else 1)%nat.
Proof.
  assert (Hs : StronglySorted Z.lt (map row (draws (events (run_main t))))).
  { rewrite run_draws. destruct (initscr_ret t =? NULL); [constructor|].
    rewrite map_map. cbn [row].
    destruct (usable t).
    - assert (Hc : forall k n,
                 map (fun j => 6 + j) (count_up k n) = count_up k (6 + n)).
      { induction k as [|k IH]; intros n; cbn [count_up map];
          [reflexivity|].
        rewrite IH. do 2 f_equal. lia. }
      rewrite Hc. apply count_up_sorted.
    - repeat constructor. }
  split; [exact Hs|]. split.
  - clear -Hs. induction Hs as [|a l _ IH Hall]; constructor; [|exact IH].
    intros Hin. rewrite Forall_forall in Hall. specialize (Hall a Hin). lia.
  - rewrite run_draws. fold (usable t).
    destruct (initscr_ret t =? NULL); [reflexivity|].
    rewrite length_map. destruct (usable t); reflexivity.
Qed.

(** ** Starting and stopping, in every run *)

(** X7.  Every run calls [initscr] exactly once.  When that call returned
    a window, the run calls [delwin] exactly once, with that window, and
    [endwin] exactly once; when it returned [NULL], the run calls neither:
    [delwin] is never handed [NULL], and starts and stops are paired. *)
Theorem start_and_stop_paired (t : terminal) :
  filter is_initscr (events (run_main t)) = [Einitscr (initscr_ret t)] /\
  filter is_delwin (events (run_main t))
  = (if initscr_ret t =? NULL then [] else [Edelwin (initscr_ret t)]) /\
  filter is_endwin (events (run_main t))
  = (if initscr_ret t =? NULL then [] else [Eendwin]) /\
  ~ In (Edelwin NULL) (events (run_main t)).
Proof.
  destruct (Z.eqb_spec (initscr_ret t) NULL) as [H|H].
  - rewrite (run_failed t H), H. cbn. intuition discriminate.
  - rewrite (events_started t H).
    assert (Hd : forall l, In (Edelwin NULL) l ->
                           In (Edelwin NULL) (filter is_delwin l)).
    { intros l Hin. apply filter_In. now split. }
    destruct (usable t); (repeat (split; [reflexivity|]));
      intros Hin; apply Hd in Hin; cbn in Hin;
      destruct Hin as [Heq|[]]; congruence.
Qed.

(** ** The program's own messages *)

(** X8.  The program itself calls [fprintf] at most once in a run: once,
    on [stderr] and with the one-line diagnostic, when [initscr] returned
    [NULL], and not at all when it returned a window, whatever the colour
    test gives.  It never calls it on [stdout]. *)
Theorem fprintf_only_on_failure (t : terminal) :
  filter is_fprintf (events (run_main t))
  = if initscr_ret t =? NULL
    then [Efprintf stderr ("Error initialising ncurses." ++ LF)%string]
    else [].
Proof.
  destruct (Z.eqb_spec (initscr_ret t) NULL) as [H|H].
  - now rewrite (run_failed t H).
  - rewrite (events_started t H). now destruct (usable t).
Qed.

(** ** How much of the terminal matters *)

(** X9.  Of a terminal that gives a window, only the outcome of the test
    of line 45 shows: two such terminals for which the test comes out the
    same give the same screen, colour table, diagnostics and status.  So
    pairs beyond the thirteenth change nothing, and a terminal without
    colour looks the same as one with colour but too few pairs. *)
Theorem only_the_colour_test_shows (t1 t2 : terminal) :
  initscr_ret t1 <> NULL ->
  initscr_ret t2 <> NULL ->
  has_colors_ret t1 && (COLOR_PAIRS t1 >=? 13)
  = has_colors_ret t2 && (COLOR_PAIRS t2 >=? 13) ->
  observe (run_main t1) = observe (run_main t2).
Proof.
  intros H1 H2 Hgate.
  rewrite (observe_started t1 H1), (observe_started t2 H2).
  unfold usable. now rewrite Hgate.
Qed.

Lemma only_the_colour_test_shows_witness :
  initscr_ret vt100 <> NULL /\
  initscr_ret eight_pairs <> NULL /\
  has_colors_ret vt100 && (COLOR_PAIRS vt100 >=? 13)
  = has_colors_ret eight_pairs && (COLOR_PAIRS eight_pairs >=? 13) /\
  observe (run_main vt100) = observe (run_main eight_pairs).
Proof.
  assert (H1 : initscr_ret vt100 <> NULL) by (vm_compute; discriminate).
  assert (H2 : initscr_ret eight_pairs <> NULL)
    by (vm_compute; discriminate).
  assert (Hg : has_colors_ret vt100 && (COLOR_PAIRS vt100 >=? 13)
               = has_colors_ret eight_pairs
                 && (COLOR_PAIRS eight_pairs >=? 13)) by reflexivity.
  split; [exact H1|]. split; [exact H2|]. split; [exact Hg|].
  exact (only_the_colour_test_shows vt100 eight_pairs H1 H2 Hg).
Defined.

(** ** The colour table *)

Lemma run_pair_defs (t : terminal) :
  pair_defs (events (run_main t)) = pair_table
  \/ pair_defs (events (run_main t)) = [].
Proof.
  destruct (Z.eq_dec (initscr_ret t) NULL) as [H|H].
  - right. now rewrite (run_failed t H).
  - rewrite (events_started t H). destruct (usable t); [left|right];
      reflexivity.
Qed.

(** X10.  In the colour table a run defines, no pair number is defined
    twice, no two pairs have the same foreground and background, and no
    pair has its foreground equal to its background. *)
Theorem colour_table_distinct_and_legible (t : terminal) :
  NoDup (map fst (pair_defs (events (run_main t)))) /\
  NoDup (map snd (pair_defs (events (run_main t)))) /\
  forall p f b,
    In (p, (f, b)) (pair_defs (events (run_main t))) -> f <> b.
Proof.
  destruct (run_pair_defs t) as [-> | ->].
  - split; [|split].
    + cbn. repeat (constructor; [cbn; intuition discriminate|]). constructor.
    + cbn. repeat (constructor; [cbn; intuition discriminate|]). constructor.
    + intros p f b Hin. cbn in Hin.
      repeat (destruct Hin as [Heq|Hin];
              [injection Heq as _ <- <-; discriminate|]).
      destruct Hin.
  - cbn. repeat split; try constructor. intros p f b [].
Qed.

(** ** Calls and the state of the session *)

Lemma inside_session_sound :
  forall before log s e after,
    inside_session s log = true ->
    log = before ++ e :: after ->
    needs_session e = true ->
    fold_left session_step before s = Active.
Proof.
  induction before as [|x before IH]; intros log s e after Hok -> He.
  - cbn in Hok. rewrite He in Hok. destruct s; try discriminate.
    reflexivity.
  - cbn [app inside_session] in Hok. apply andb_true_iff in Hok as [_ Hok].
    cbn [fold_left]. now apply (IH _ _ e after Hok).
Qed.

Lemma run_inside_session (t : terminal) :
  inside_session Uninitialized (events (run_main t)) = true.
Proof.
  destruct (Z.eqb_spec (initscr_ret t) NULL) as [H|H].
  - now rewrite (run_failed t H).
  - rewrite (events_started t H). apply Z.eqb_neq in H.
    destruct (usable t); cbn; rewrite H; reflexivity.
Qed.

(** X11.  Every call to [start_color], [init_pair], [color_set] or
    [mvaddstr] that a run makes is made while the session is active:
    after [initscr] returned a window and before [endwin]. *)
Theorem screen_calls_inside_session
    (t : terminal) (before after : list event) (e : event) :
  events (run_main t) = before ++ e :: after ->
  needs_session e = true ->
  session_after before = Active.
Proof.
  intros Hsplit He.
  exact (inside_session_sound before _ Uninitialized e after
           (run_inside_session t) Hsplit He).
Qed.

Lemma screen_calls_inside_session_witness :
  events (run_main vt100)
  = firstn 2 (events (run_main vt100))
      ++ Emvaddstr 6 32 " Hello, world! "
      :: skipn 3 (events (run_main vt100)) /\
  needs_session (Emvaddstr 6 32 " Hello, world! ") = true /\
  session_after (firstn 2 (events (run_main vt100))) = Active.
Proof.
  assert (H : events (run_main vt100)
              = firstn 2 (events (run_main vt100))
                  ++ Emvaddstr 6 32 " Hello, world! "
                  :: skipn 3 (events (run_main vt100))) by reflexivity.
  assert (He : needs_session (Emvaddstr 6 32 " Hello, world! ") = true)
    by reflexivity.
  split; [exact H|]. split; [exact He|].
  exact (screen_calls_inside_session vt100 _ _ _ H He).
Defined.

(** X12.  The last call of a run that got a window is the [refresh()] of
    line 92, and it is made after [delwin(mainwin)] and after [endwin()]
    has stopped the session. *)
Theorem last_refresh_after_stop (t : terminal) :
  initscr_ret t <> NULL ->
  exists before,
    events (run_main t) = before ++ [Erefresh] /\
    In (Edelwin (initscr_ret t)) before /\
    In Eendwin before /\
    session_after before = Terminated.
Proof.
  intros H. rewrite (events_started t H).
  exists (opening (initscr_ret t)
            ++ Ehas_colors (has_colors_ret t)
            :: (if usable t then pair_table_calls ++ coloured_rows 13 1
                else [])
            ++ [Erefresh; Esleep 3; Edelwin (initscr_ret t); Eendwin]).
  apply Z.eqb_neq in H. unfold session_after.
  destruct (usable t); cbn; rewrite H; intuition reflexivity.
Qed.

Lemma last_refresh_after_stop_witness :
  initscr_ret xterm <> NULL /\
  exists before,
    events (run_main xterm) = before ++ [Erefresh] /\
    In (Edelwin (initscr_ret xterm)) before /\
    In Eendwin before /\
    session_after before = Terminated.
Proof.
  assert (H : initscr_ret xterm <> NULL) by (vm_compute; discriminate).
  split; [exact H | exact (last_refresh_after_stop xterm H)].
Defined.
